(** * Behavioral mock interview app (src/app.py): a shallow embedding

    The Streamlit script is re-executed top to bottom on every user action.
    One execution is modelled as a computation in a small state monad over a
    [world]: the per-user [st.session_state] (absent before the first run)
    and the trace of observable effects (model calls, warnings, errors,
    the download offered).  [st.rerun()] and [st.stop()] raise Streamlit's
    control exceptions (subclasses of [BaseException], so the script's
    [except Exception] clauses do not catch them) and end the run; an
    uncaught Python error is [Crash].  The hosted model is an [oracle]:
    each chain call either returns a completion or raises.  Strings are
    ASCII strings. *)

From Stdlib Require Import String Ascii List Arith Bool Lia.
From stdpp Require Import base gmap list strings.
Import ListNotations.
Open Scope string_scope.

(** ** Python string helpers *)

(** [str.isspace] restricted to ASCII: \t \n \v \f \r, \x1c-\x1f, space. *)
Definition is_py_space (c : ascii) : bool :=
  let n := nat_of_ascii c in
  (((9 <=? n) && (n <=? 13)) || ((28 <=? n) && (n <=? 32)))%nat.

Fixpoint lstrip (s : string) : string :=
  match s with
  | EmptyString => EmptyString
  | String c s' => if is_py_space c then lstrip s' else s
  end.

Fixpoint rstrip (s : string) : string :=
  match s with
  | EmptyString => EmptyString
  | String c s' =>
      let r := rstrip s' in
      if String.eqb r "" && is_py_space c then "" else String c r
  end.

(** [str.strip()] *)
Definition strip (s : string) : string := rstrip (lstrip s).

(** [str.lower()] on ASCII. *)
Definition lower_char (c : ascii) : ascii :=
  let n := nat_of_ascii c in
  if ((65 <=? n) && (n <=? 90))%nat then ascii_of_nat (n + 32)%nat else c.

Fixpoint lower (s : string) : string :=
  match s with
  | EmptyString => EmptyString
  | String c s' => String (lower_char c) (lower s')
  end.

(** Decimal rendering of a natural, as an f-string prints an int. *)
Fixpoint digits_aux (fuel n : nat) (acc : string) : string :=
  match fuel with
  | 0 => acc
  | S f =>
      let acc' := String (ascii_of_nat (48 + n mod 10)%nat) acc in
      if (n <? 10)%nat then acc' else digits_aux f (n / 10)%nat acc'
  end.

Definition str_of_nat (n : nat) : string := digits_aux (S n) n "".

Definition nl : string := String (ascii_of_nat 10%nat) "".

(** ["\n\n".join(...)] *)
Definition join_blank (l : list string) : string := String.concat (nl +:+ nl) l.

(** ** Session state and effects *)

Record session := mk_session {
  questions : list string;
  current_question : nat;
  responses : list string;
  feedback : list string;
  quit : bool
}.

(** Lines 27-32: the state created on the first run of a session. *)
Definition empty_session : session := mk_session [] 0%nat [] [] false.

Definition set_questions (l : list string) (s : session) : session :=
  mk_session l (current_question s) (responses s) (feedback s) (quit s).
Definition set_current_question (n : nat) (s : session) : session :=
  mk_session (questions s) n (responses s) (feedback s) (quit s).
Definition set_responses (l : list string) (s : session) : session :=
  mk_session (questions s) (current_question s) l (feedback s) (quit s).
Definition set_feedback (l : list string) (s : session) : session :=
  mk_session (questions s) (current_question s) (responses s) l (quit s).
Definition set_quit (b : bool) (s : session) : session :=
  mk_session (questions s) (current_question s) (responses s) (feedback s) b.

(** The two LLMChain invocations, with the template variables they pass. *)
Inductive chain_call :=
| QuestionRun (job_title resume job_desc past_responses : string)
| FeedbackRun (question answer : string).

(** What [chain.run] does: return a completion or raise. *)
Inductive chain_result :=
| Returns (completion : string)
| Raises (exc : string).

Definition oracle := chain_call -> chain_result.

Inductive event :=
| Called (c : chain_call)
| Warning (msg : string)
| ErrorMsg (msg : string)
| SuccessMsg (msg : string)
| Download (data : string).

Definition is_call (e : event) : bool :=
  match e with Called _ => true | _ => false end.

Record world := mk_world {
  session_state : option session;
  trace : list event
}.

Inductive flow (A : Type) :=
| Next (a : A)
| Rerun
| Stop
| Crash.
Arguments Next {A} a.
Arguments Rerun {A}.
Arguments Stop {A}.
Arguments Crash {A}.

Definition M (A : Type) : Type := world -> flow A * world.

Global Instance M_ret : MRet M := fun A a w => (Next a, w).
Global Instance M_bind : MBind M := fun A B f m w =>
  match m w with
  | (Next a, w') => f a w'
  | (Rerun, w') => (Rerun, w')
  | (Stop, w') => (Stop, w')
  | (Crash, w') => (Crash, w')
  end.

Definition skip : M unit := mret tt.
Definition st_rerun : M unit := fun w => (Rerun, w).
Definition st_stop : M unit := fun w => (Stop, w).
Definition crash {A} : M A := fun w => (Crash, w).

Definition emit (e : event) : M unit :=
  fun w => (Next tt, mk_world (session_state w) (trace w ++ [e])).

(** [st.session_state[...]] read: a missing key raises [KeyError]. *)
Definition get_session : M session :=
  fun w => match session_state w with
           | Some s => (Next s, w)
           | None => (Crash, w)
           end.

Definition put_session (s : session) : M unit :=
  fun w => (Next tt, mk_world (Some s) (trace w)).

Definition modify_session (f : session -> session) : M unit :=
  s ← get_session; put_session (f s).

Definition run_chain (o : oracle) (c : chain_call) : M chain_result :=
  emit (Called c);; mret (o c).

(** ** The page script *)

(** Widget values read during one run (lines 48-60, 120).  The resume is
    the pasted text or the text extracted from the uploaded PDF. *)
Record inputs := mk_inputs {
  job_title : string;
  resume_text : string;
  include_job_desc : bool;
  job_desc_text : string;
  user_response : string
}.

Definition job_desc (inp : inputs) : string :=
  if include_job_desc inp then job_desc_text inp else "Not provided".

(** The button whose click triggered this run, if any. *)
Inductive button := StartBtn | SubmitBtn | EndBtn.

Definition button_eqb (a b : button) : bool :=
  match a, b with
  | StartBtn, StartBtn | SubmitBtn, SubmitBtn | EndBtn, EndBtn => true
  | _, _ => false
  end.

(** [st.button(label)] is true exactly on the run its click triggered. *)
Definition clicked (pressed : option button) (b : button) : bool :=
  match pressed with Some b' => button_eqb b' b | None => false end.

(** Lines 27-32. *)
Definition init_session : M unit :=
  fun w => match session_state w with
           | None => (Next tt, mk_world (Some empty_session) (trace w))
           | Some _ => (Next tt, w)
           end.

Definition append_question (q : string) (s : session) : session :=
  set_questions (questions s ++ [q]) s.
Definition append_response (a : string) (s : session) : session :=
  set_responses (responses s ++ [a]) s.
Definition append_feedback (f : string) (s : session) : session :=
  set_feedback (feedback s ++ [f]) s.

Definition start_warning : string :=
  "Please provide both the job title and your resume.".

(** Lines 96-112: body of [if st.button("Start Mock Interview")]. *)
Definition start_handler (o : oracle) (inp : inputs) : M unit :=
  if String.eqb (strip (job_title inp)) "" || String.eqb (strip (resume_text inp)) ""
  then emit (Warning start_warning)
  else
    modify_session (set_questions []);;
    modify_session (set_responses []);;
    modify_session (set_feedback []);;
    modify_session (set_current_question 0%nat);;
    modify_session (set_quit false);;
    r ← run_chain o (QuestionRun (job_title inp) (resume_text inp) (job_desc inp) "");
    match r with
    | Returns output =>
        modify_session (append_question (strip output));;
        st_rerun
    | Raises e =>
        emit (ErrorMsg ("Error generating question: " +:+ e));;
        st_stop
    end.

(** Lines 135-138: [f"Q{i+1}: {questions[i]}\nA{i+1}: {responses[i]}"]. *)
Definition qa_entry (i : nat) (q a : string) : string :=
  "Q" +:+ str_of_nat (S i) +:+ ": " +:+ q +:+ nl +:+
  "A" +:+ str_of_nat (S i) +:+ ": " +:+ a.

(** The list comprehension over [range(len(responses))]; [questions[i]]
    raises [IndexError] ([None]) when [questions] is shorter. *)
Fixpoint qa_entries (qs rs : list string) (i : nat) : option (list string) :=
  match rs with
  | [] => Some []
  | a :: rs' =>
      match qs !! i with
      | None => None
      | Some q =>
          match qa_entries qs rs' (S i) with
          | None => None
          | Some l => Some (qa_entry i q a :: l)
          end
      end
  end.

Definition past_transcript (qs rs : list string) : option string :=
  match qa_entries qs rs 0%nat with
  | None => None
  | Some l => Some (join_blank l)
  end.

Definition is_sentinel (answer : string) : bool :=
  let a := lower (strip answer) in String.eqb a "quit" || String.eqb a "exit".

Definition feedback_failed : string := "Feedback generation failed.".

(** Lines 123-147: body of [if st.button("Submit Response")], where
    [question] is [questions[idx]] read by the enclosing block. *)
Definition submit_handler (o : oracle) (inp : inputs) (question : string) : M unit :=
  let ur := user_response inp in
  if is_sentinel ur then
    modify_session (set_quit true);;
    st_rerun
  else if negb (String.eqb (strip ur) "") then
    modify_session (append_response (strip ur));;
    r ← run_chain o (FeedbackRun question (strip ur));
    (match r with
     | Returns fb => modify_session (append_feedback (strip fb))
     | Raises e =>
         modify_session (append_feedback feedback_failed);;
         emit (ErrorMsg ("Error generating feedback: " +:+ e))
     end);;
    s ← get_session;
    match past_transcript (questions s) (responses s) with
    | None => crash
    | Some past_responses =>
        r2 ← run_chain o (QuestionRun (job_title inp) (resume_text inp) (job_desc inp) past_responses);
        (match r2 with
         | Returns next_question =>
             modify_session (append_question (strip next_question));;
             modify_session (fun s => set_current_question (S (current_question s)) s)
         | Raises e =>
             emit (ErrorMsg ("Error generating next question: " +:+ e));;
             modify_session (set_quit true)
         end);;
        st_rerun
    end
  else st_rerun.

(** Line 115: the question block is rendered. *)
Definition question_shown (s : session) : bool :=
  negb (quit s) && negb (bool_decide (questions s = [])) &&
  (current_question s <? length (questions s))%nat.

(** Lines 115-147. *)
Definition question_section (o : oracle) (inp : inputs) (pressed : option button) : M unit :=
  s ← get_session;
  if question_shown s then
    match questions s !! current_question s with
    | None => crash
    | Some question =>
        if clicked pressed SubmitBtn then submit_handler o inp question else skip
    end
  else skip.

(** Line 150 ([A or B and C] is [A or (B and C)]). *)
Definition summary_shown (s : session) : bool :=
  quit s || (negb (bool_decide (questions s = [])) &&
             (length (questions s) <=? current_question s)%nat).

Fixpoint zip3 (qs rs fs : list string) : list (string * string * string) :=
  match qs, rs, fs with
  | q :: qs', a :: rs', f :: fs' => (q, a, f) :: zip3 qs' rs' fs'
  | _, _, _ => []
  end.

(** [f"Q{i}: {q}\nA{i}: {a}\nFeedback: {f}"] *)
Definition log_entry (i : nat) (q a f : string) : string :=
  "Q" +:+ str_of_nat i +:+ ": " +:+ q +:+ nl +:+
  "A" +:+ str_of_nat i +:+ ": " +:+ a +:+ nl +:+
  "Feedback: " +:+ f.

(** [enumerate(..., 1)] *)
Fixpoint enumerate_from {A} (i : nat) (l : list A) : list (nat * A) :=
  match l with
  | [] => []
  | x :: l' => (i, x) :: enumerate_from (S i) l'
  end.

(** Lines 157-160. *)
Definition full_log (s : session) : string :=
  join_blank (map (fun '(i, (q, a, f)) => log_entry i q a f)
                  (enumerate_from 1%nat (zip3 (questions s) (responses s) (feedback s)))).

(** Lines 150-161 (the markdown lines echo the same triples and are not
    recorded in the trace). *)
Definition summary_section : M unit :=
  s ← get_session;
  if summary_shown s then
    emit (SuccessMsg "Mock interview completed!");;
    emit (Download (full_log s))
  else skip.

(** Lines 164-166. *)
Definition end_section (pressed : option button) : M unit :=
  if clicked pressed EndBtn then modify_session (set_quit true);; st_rerun else skip.

(** One run of the script after the start-up checks (lines 27-166). *)
Definition script (o : oracle) (inp : inputs) (pressed : option button) : M unit :=
  init_session;;
  (if clicked pressed StartBtn then start_handler o inp else skip);;
  question_section o inp pressed;;
  summary_section;;
  end_section pressed.

(** ** Start-up (lines 11-24) *)

(** [load_dotenv()] with its default [override=False]: the entries of the
    [.env] file are added to [os.environ] for the keys not already set. *)
Definition load_dotenv (dotenv env : gmap string string) : gmap string string :=
  env ∪ dotenv.

Definition api_key_name : string := "GOOGLE_API_KEY".

(** [if not api_key]: [None] and the empty string are falsy. *)
Definition falsy (v : option string) : bool :=
  match v with None => true | Some k => String.eqb k "" end.

Definition missing_key_msg : string :=
  "GOOGLE_API_KEY is not set in the environment variables.".

(** [llm_init k] is [Some e] when the model client constructor raises [e]. *)
Definition startup (env dotenv : gmap string string) (llm_init : string -> option string) : M unit :=
  let api_key := load_dotenv dotenv env !! api_key_name in
  match api_key with
  | Some k => if String.eqb k "" then emit (ErrorMsg missing_key_msg);; st_stop else
      match llm_init k with
      | Some e => emit (ErrorMsg ("Failed to initialize language model: " +:+ e));; st_stop
      | None => skip
      end
  | None => emit (ErrorMsg missing_key_msg);; st_stop
  end.

(** A whole run of app.py. *)
Definition app (env dotenv : gmap string string) (llm_init : string -> option string)
    (o : oracle) (inp : inputs) (pressed : option button) : M unit :=
  startup env dotenv llm_init;; script o inp pressed.

(** ** Resume input (lines 34-57) *)

(** What PyMuPDF makes of the uploaded bytes: the text of each page, or
    the exception raised by [fitz.open] or [page.get_text]. *)
Inductive pdf_doc :=
| PdfPages (pages : list string)
| PdfError (exc : string).

(** Lines 35-41: [extract_text_from_pdf]. *)
Definition extract_text_from_pdf (doc : pdf_doc) : M string :=
  match doc with
  | PdfPages pages => mret (String.concat nl pages)
  | PdfError e => emit (ErrorMsg ("Error reading PDF: " +:+ e));; mret ""
  end.

(** The radio choice of line 49. *)
Inductive resume_option := PasteText | UploadPdf.

(** All widget values of one run, before the resume text is derived. *)
Record form := mk_form {
  f_job_title : string;
  f_resume_option : resume_option;
  f_pasted_text : string;
  f_uploaded_file : option pdf_doc;
  f_include_job_desc : bool;
  f_job_desc_text : string;
  f_user_response : string
}.

(** Lines 51-57 ([if uploaded_file:] is false only when nothing is
    uploaded). *)
Definition read_resume (fm : form) : M string :=
  match f_resume_option fm with
  | PasteText => mret (f_pasted_text fm)
  | UploadPdf =>
      match f_uploaded_file fm with
      | None => mret ""
      | Some doc => extract_text_from_pdf doc
      end
  end.

Definition inputs_from (fm : form) (resume : string) : inputs :=
  mk_inputs (f_job_title fm) resume (f_include_job_desc fm) (f_job_desc_text fm)
    (f_user_response fm).

(** One run of the page after start-up: the session is initialised
    (lines 27-32), the resume is read (lines 51-57), then the rest of the
    script runs; the [init_session] at the head of [script] is then a
    no-op. *)
Definition page (o : oracle) (fm : form) (pressed : option button) : M unit :=
  init_session;;
  resume ← read_resume fm;
  script o (inputs_from fm resume) pressed.

(** ** Concrete runs used by the counterexamples and witnesses *)

Definition oracle_ok : oracle := fun c =>
  match c with
  | QuestionRun _ _ _ _ => Returns " Tell me about yourself. "
  | FeedbackRun _ _ => Returns " Clear and relevant. "
  end.

Definition oracle_down : oracle := fun _ => Raises "503 Service Unavailable".

Definition inputs_of (answer : string) : inputs :=
  mk_inputs "Backend Engineer" "5 years Go and distributed systems" false "" answer.

Definition fresh_world : world := mk_world None [].

(** Start-up inputs: an empty process environment, a [.env] file that
    holds the key, and a model client that constructs without error. *)
Definition env_empty : gmap string string := ∅.
Definition dotenv_with_key : gmap string string := {[ "GOOGLE_API_KEY" := "test-key" ]}.
Definition env_blank_key : gmap string string := {[ "GOOGLE_API_KEY" := "" ]}.
Definition llm_ok : string -> option string := fun _ => None.

(** A model client constructor that rejects every key. *)
Definition llm_bad_key : string -> option string := fun _ => Some "API key not valid".

(** The world after a successful Start on a fresh session. *)
Definition started_world : world :=
  snd (script oracle_ok (inputs_of "") (Some StartBtn) fresh_world).

Definition started_session : session :=
  mk_session ["Tell me about yourself."] 0%nat [] [] false.

(** Two answered turns after [started_world]: the first gets its feedback
    and a next question, the second gets its feedback but the next
    question fails, which ends the session. *)
Definition answered_world : world :=
  snd (script oracle_down (inputs_of "I mentored two juniors.") (Some SubmitBtn)
         (snd (script oracle_ok (inputs_of "I led the migration.") (Some SubmitBtn) started_world))).

(** ** Descriptions of a submitted turn, used in the statements below *)

(** The transcript of question/answer pairs as the claims describe it:
    entry [k] pairs the [k]-th question with the [k]-th answer. *)
Definition transcript_of (qs rs : list string) : string :=
  join_blank (imap (fun k a => qa_entry k (nth k qs "") a) rs).

(** What the feedback call contributes to [feedback]. *)
Definition feedback_text (r : chain_result) : string :=
  match r with Returns fb => strip fb | Raises _ => feedback_failed end.

Definition feedback_errors (r : chain_result) : list event :=
  match r with
  | Returns _ => []
  | Raises e => [ErrorMsg ("Error generating feedback: " +:+ e)]
  end.

(** The effect of the next-question call on the state and the page. *)
Definition next_question_effect (r : chain_result) (s : session) : session * list event :=
  match r with
  | Returns nq =>
      (set_current_question (S (current_question s)) (append_question (strip nq) s), [])
  | Raises e =>
      (set_quit true s, [ErrorMsg ("Error generating next question: " +:+ e)])
  end.

(** What the summary block shows on a run that reaches it. *)
Definition summary_events (s : session) : list event :=
  if summary_shown s then [SuccessMsg "Mock interview completed!"; Download (full_log s)] else [].

(** A list left as it is or extended by one element at its end. *)
Definition extends_by_at_most_one (l l' : list string) : Prop :=
  l' = l \/ exists x, l' = (l ++ [x])%list.

(** Reachable worlds: those produced by runs of the script from a session
    that has not been initialised yet. *)
Inductive reachable : world -> Prop :=
| reach_init (tr : list event) : reachable (mk_world None tr)
| reach_run (o : oracle) (inp : inputs) (pressed : option button) (w : world) :
    reachable w -> reachable (snd (script o inp pressed w)).

(** The invariant of claim C9. *)
Definition lists_aligned (s : session) : Prop :=
  length (responses s) = length (feedback s) /\
  (length (questions s) = length (responses s) \/
   length (questions s) = S (length (responses s))).

(** The stronger invariant kept by reachable states. *)
Definition turn_inv (s : session) : Prop :=
  length (responses s) = length (feedback s) /\
  ((length (questions s) = S (length (responses s)) /\
    current_question s = length (responses s)) \/
   (length (questions s) = length (responses s) /\
    (quit s = true \/ questions s = []))).

Definition world_inv (w : world) : Prop :=
  match session_state w with None => True | Some s => turn_inv s end.

(** Number of model calls among some page events. *)
Definition calls_made (l : list event) : nat := length (filter is_call l).

(** Every stored text is trimmed, and no stored answer is blank or a
    quit/exit sentinel. *)
Definition clean_session (s : session) : Prop :=
  Forall (fun a => strip a = a /\ a <> "" /\ is_sentinel a = false) (responses s) /\
  Forall (fun q => strip q = q) (questions s) /\
  Forall (fun f => strip f = f) (feedback s).

(** The most model calls one run can make, by the button clicked. *)
Definition call_budget (pressed : option button) : nat :=
  match pressed with
  | Some StartBtn => 1
  | Some SubmitBtn => 2
  | _ => 0
  end.

(** A computation that keeps [world_inv]. *)
Definition preserves (m : M unit) : Prop :=
  forall w, world_inv w -> world_inv (snd (m w)).

(** ** Proof automation *)

Ltac run_m :=
  unfold script, app, startup, init_session, start_handler, question_section,
    submit_handler, summary_section, end_section, modify_session, get_session,
    put_session, run_chain, emit, skip, st_rerun, st_stop, crash,
    mbind, M_bind, mret, M_ret in *; simpl in *.

Lemma eqb_false_of_neq (s t : string) : s <> t -> String.eqb s t = false.
Proof. apply String.eqb_neq. Qed.

Lemma qa_entries_some (qs rs : list string) (i : nat) :
  (i + length rs <= length qs)%nat ->
  qa_entries qs rs i = Some (imap (fun k a => qa_entry (i + k) (nth (i + k) qs "") a) rs).
Proof.
  revert i; induction rs as [|a rs IH]; intros i Hlen; simpl in *; [reflexivity|].
  destruct (nth_lookup_or_length qs i "") as [Hq|Hq]; [|lia].
  rewrite Hq, (IH (S i)) by lia.
  rewrite Nat.add_0_r. f_equal. f_equal.
  apply imap_ext; intros k x _; simpl. rewrite Nat.add_succ_r. reflexivity.
Qed.

Lemma past_transcript_some (qs rs : list string) :
  (length rs <= length qs)%nat -> past_transcript qs rs = Some (transcript_of qs rs).
Proof. intros H. unfold past_transcript. rewrite qa_entries_some by (simpl; lia). reflexivity. Qed.

(** One answered turn: the effect of the Submit Response body on a state
    whose questions run one ahead of its responses. *)
Lemma submit_handler_answer (o : oracle) (inp : inputs) (question : string) (w : world) (s : session) :
  session_state w = Some s ->
  (length (responses s) < length (questions s))%nat ->
  is_sentinel (user_response inp) = false ->
  strip (user_response inp) <> "" ->
  let a := strip (user_response inp) in
  let fb := o (FeedbackRun question a) in
  let s1 := append_feedback (feedback_text fb) (append_response a s) in
  let qc := QuestionRun (job_title inp) (resume_text inp) (job_desc inp)
              (transcript_of (questions s) (responses s ++ [a])) in
  submit_handler o inp question w =
    (Rerun, mk_world (Some (fst (next_question_effect (o qc) s1)))
              (trace w ++ [Called (FeedbackRun question a)] ++ feedback_errors fb ++
               [Called qc] ++ snd (next_question_effect (o qc) s1))).
Proof.
  intros Hs Hlen Hsen Hne. apply eqb_false_of_neq in Hne.
  destruct w as [ss tr]; simpl in Hs; subst ss.
  run_m. rewrite Hsen, Hne. simpl.
  destruct (o (FeedbackRun question (strip (user_response inp)))) as [f|e]; simpl;
    rewrite past_transcript_some by (rewrite length_app; simpl; lia); simpl;
    destruct (o (QuestionRun _ _ _ _)); simpl; rewrite <- ?app_assoc; reflexivity.
Qed.

(** ** Claims *)

(** A Start Mock Interview run with a non-empty title and resume. *)
Lemma script_start_valid (o : oracle) (inp : inputs) (w : world) :
  strip (job_title inp) <> "" -> strip (resume_text inp) <> "" ->
  script o inp (Some StartBtn) w =
    let c := QuestionRun (job_title inp) (resume_text inp) (job_desc inp) "" in
    match o c with
    | Returns out =>
        (Rerun, mk_world (Some (mk_session [strip out] 0%nat [] [] false)) (trace w ++ [Called c]))
    | Raises e =>
        (Stop, mk_world (Some empty_session)
                 (trace w ++ [Called c; ErrorMsg ("Error generating question: " +:+ e)]))
    end.
Proof.
  intros Hj Hr.
  apply eqb_false_of_neq in Hj, Hr.
  destruct w as [[s|] tr]; run_m; rewrite Hj, Hr; simpl;
    destruct (o _); simpl; rewrite <- ?app_assoc; reflexivity.
Qed.

(** C1: with a non-empty job title and resume, Start Mock Interview resets
    the session and issues one question-generation call with empty past
    answers; when that call returns, the state holds exactly the trimmed
    completion as its only question, no responses, no feedback, index 0 and
    quit cleared, and the run ends in a rerun; when it raises, an error is
    shown, the run stops and the reset state holds no question. *)
Theorem start_valid_one_question (o : oracle) (inp : inputs) (w : world) :
  strip (job_title inp) <> "" -> strip (resume_text inp) <> "" ->
  script o inp (Some StartBtn) w =
    let c := QuestionRun (job_title inp) (resume_text inp) (job_desc inp) "" in
    match o c with
    | Returns out =>
        (Rerun, mk_world (Some (mk_session [strip out] 0%nat [] [] false)) (trace w ++ [Called c]))
    | Raises e =>
        (Stop, mk_world (Some empty_session)
                 (trace w ++ [Called c; ErrorMsg ("Error generating question: " +:+ e)]))
    end.
Proof. apply script_start_valid. Qed.

Lemma start_valid_one_question_witness :
  strip (job_title (inputs_of "")) <> "" /\ strip (resume_text (inputs_of "")) <> "" /\
  script oracle_ok (inputs_of "") (Some StartBtn) fresh_world =
    (Rerun, mk_world (Some (mk_session ["Tell me about yourself."] 0%nat [] [] false))
       [Called (QuestionRun "Backend Engineer" "5 years Go and distributed systems" "Not provided" "")]).
Proof.
  split; [discriminate | split; [discriminate |]].
  rewrite (start_valid_one_question oracle_ok (inputs_of "") fresh_world); try discriminate.
  reflexivity.
Defined.

(** C1 counterexample: when the question-generation call raises, the
    session after a valid Start holds no question at all. *)
Lemma start_model_failure_no_question :
  match session_state (snd (script oracle_down (inputs_of "") (Some StartBtn) fresh_world)) with
  | Some s => questions s = []
  | None => False
  end.
Proof. vm_compute. reflexivity. Qed.

(** ** The turn invariant on reachable states *)

Lemma preserves_bind (m : M unit) (k : unit -> M unit) :
  preserves m -> (forall u, preserves (k u)) -> preserves (m ≫= k).
Proof.
  intros Hm Hk w Hw. unfold mbind, M_bind.
  specialize (Hm w Hw). destruct (m w) as [[u| | |] w']; simpl in *; auto.
  apply (Hk u w' Hm).
Qed.

Lemma preserves_skip : preserves skip.
Proof. intros w Hw. exact Hw. Qed.

Lemma turn_inv_set_quit (s : session) : turn_inv s -> turn_inv (set_quit true s).
Proof. unfold turn_inv; simpl. intros [Hrf [[Hq Hc]|[Hq _]]]; split; auto. Qed.

Lemma preserves_init : preserves init_session.
Proof.
  intros [[s|] tr] Hw; simpl; auto.
  unfold world_inv, turn_inv; simpl. split; auto.
Qed.

Lemma preserves_start (o : oracle) (inp : inputs) : preserves (start_handler o inp).
Proof.
  intros [[s|] tr] Hw; unfold world_inv in *; run_m;
    destruct (String.eqb _ _ || String.eqb _ _); simpl; auto.
  destruct (o _); simpl; unfold turn_inv; simpl; auto.
Qed.

Lemma turn_inv_shown (s : session) :
  turn_inv s -> question_shown s = true ->
  length (questions s) = S (length (responses s)) /\
  current_question s = length (responses s) /\ quit s = false.
Proof.
  unfold turn_inv, question_shown. intros [_ [[Hq Hc]|[Hq [Hquit|Hnil]]]] Hsh;
    apply andb_prop in Hsh as [Hsh Hlt]; apply andb_prop in Hsh as [Hnq Hne];
    apply negb_true_iff in Hnq.
  - auto.
  - congruence.
  - rewrite Hnil in Hne. discriminate.
Qed.

Lemma preserves_question_section (o : oracle) (inp : inputs) (pressed : option button) :
  preserves (question_section o inp pressed).
Proof.
  intros [[s|] tr] Hw; [|exact Hw]. unfold world_inv in Hw; simpl in Hw.
  unfold question_section, get_session, mbind, M_bind; simpl.
  destruct (question_shown s) eqn:Hsh; [|exact Hw].
  destruct (turn_inv_shown s Hw Hsh) as [Hq [Hc Hquit]].
  destruct (questions s !! current_question s) as [question|] eqn:Hlk; [|exact Hw].
  destruct (clicked pressed SubmitBtn); [|exact Hw].
  destruct (is_sentinel (user_response inp)) eqn:Hsen.
  - unfold submit_handler. rewrite Hsen. run_m. apply turn_inv_set_quit, Hw.
  - destruct (String.eqb (strip (user_response inp)) "") eqn:Hemp.
    + unfold submit_handler. rewrite Hsen, Hemp. run_m. exact Hw.
    + apply String.eqb_neq in Hemp.
      rewrite (submit_handler_answer o inp question (mk_world (Some s) tr) s)
        by (auto; lia).
      unfold world_inv; simpl.
      destruct Hw as [Hrf _].
      destruct (o (QuestionRun _ _ _ _)); unfold turn_inv; simpl;
        rewrite ?length_app; simpl; split; try lia; auto.
Qed.

Lemma preserves_summary : preserves summary_section.
Proof.
  intros [[s|] tr] Hw; run_m; auto. destruct (summary_shown s); simpl; auto.
Qed.

Lemma preserves_end (pressed : option button) : preserves (end_section pressed).
Proof.
  intros [[s|] tr] Hw; unfold end_section; destruct (clicked pressed EndBtn);
    run_m; auto. apply turn_inv_set_quit, Hw.
Qed.

Lemma preserves_script (o : oracle) (inp : inputs) (pressed : option button) :
  preserves (script o inp pressed).
Proof.
  unfold script.
  apply preserves_bind; [apply preserves_init | intros _].
  apply preserves_bind; [destruct (clicked pressed StartBtn);
    [apply preserves_start | apply preserves_skip] | intros _].
  apply preserves_bind; [apply preserves_question_section | intros _].
  apply preserves_bind; [apply preserves_summary | intros _].
  apply preserves_end.
Qed.

Lemma reachable_inv (w : world) : reachable w -> world_inv w.
Proof.
  induction 1 as [tr | o inp pressed w _ IH]; [exact I | apply preserves_script, IH].
Qed.

Lemma started_world_reachable : reachable started_world.
Proof. apply reach_run, reach_init. Qed.

Lemma started_world_session : session_state started_world = Some started_session.
Proof. reflexivity. Qed.

(** A whole run triggered by Submit Response on a shown question with a
    non-empty, non-sentinel answer. *)
Lemma script_submit_answer (o : oracle) (inp : inputs) (w : world) (s : session) :
  reachable w -> session_state w = Some s -> question_shown s = true ->
  is_sentinel (user_response inp) = false -> strip (user_response inp) <> "" ->
  let question := nth (current_question s) (questions s) "" in
  let a := strip (user_response inp) in
  let fb := o (FeedbackRun question a) in
  let s1 := append_feedback (feedback_text fb) (append_response a s) in
  let qc := QuestionRun (job_title inp) (resume_text inp) (job_desc inp)
              (transcript_of (questions s) (responses s ++ [a])) in
  script o inp (Some SubmitBtn) w =
    (Rerun, mk_world (Some (fst (next_question_effect (o qc) s1)))
              (trace w ++ [Called (FeedbackRun question a)] ++ feedback_errors fb ++
               [Called qc] ++ snd (next_question_effect (o qc) s1))).
Proof.
  intros Hr Hs Hsh Hsen Hne.
  pose proof (reachable_inv w Hr) as Hw. unfold world_inv in Hw. rewrite Hs in Hw.
  destruct (turn_inv_shown s Hw Hsh) as [Hq [Hc Hquit]].
  destruct (nth_lookup_or_length (questions s) (current_question s) "") as [Hlk|Hlk]; [|lia].
  destruct w as [ss tr]; simpl in Hs; subst ss.
  unfold script, init_session, question_section, get_session, skip, mbind, M_bind, mret, M_ret.
  simpl. rewrite Hsh, Hlk. simpl.
  rewrite (submit_handler_answer o inp _ (mk_world (Some s) tr) s) by (auto; lia).
  reflexivity.
Qed.

(** C2 (as amended): on a shown question, a submitted answer that is
    non-empty after stripping and not a sentinel appends the stripped answer
    to responses, issues a feedback call on that single question/answer
    pair and appends its trimmed result (the placeholder if it raises),
    builds the transcript of all question/answer pairs including the new
    one, and issues the next-question call seeded with it.  When that call
    returns, the trimmed new question is appended and the index
    incremented; when it raises, the error is shown, the quit flag is set
    and no question is appended nor the index changed. *)
Theorem submit_turn_steps (o : oracle) (inp : inputs) (w : world) (s : session) :
  reachable w -> session_state w = Some s -> question_shown s = true ->
  is_sentinel (user_response inp) = false -> strip (user_response inp) <> "" ->
  let question := nth (current_question s) (questions s) "" in
  let a := strip (user_response inp) in
  let fb := o (FeedbackRun question a) in
  let past := transcript_of (questions s) (responses s ++ [a]) in
  let qc := QuestionRun (job_title inp) (resume_text inp) (job_desc inp) past in
  let calls := (trace w ++ [Called (FeedbackRun question a)] ++ feedback_errors fb ++ [Called qc])%list in
  script o inp (Some SubmitBtn) w =
    match o qc with
    | Returns nq =>
        (Rerun, mk_world
           (Some (mk_session (questions s ++ [strip nq]) (S (current_question s))
                    (responses s ++ [a]) (feedback s ++ [feedback_text fb]) (quit s)))
           calls)
    | Raises e =>
        (Rerun, mk_world
           (Some (mk_session (questions s) (current_question s)
                    (responses s ++ [a]) (feedback s ++ [feedback_text fb]) true))
           (calls ++ [ErrorMsg ("Error generating next question: " +:+ e)]))
    end.
Proof.
  intros Hr Hs Hsh Hsen Hne question a fb past qc calls.
  rewrite (script_submit_answer o inp w s Hr Hs Hsh Hsen Hne). simpl.
  fold question a fb. fold past qc. subst calls.
  destruct (o qc); simpl; rewrite <- ?app_assoc; simpl; rewrite <- ?app_assoc, ?app_nil_r; reflexivity.
Qed.

Lemma submit_turn_steps_witness :
  let inp := inputs_of "I led the migration." in
  let past := transcript_of (questions started_session) (responses started_session ++ ["I led the migration."]) in
  script oracle_ok inp (Some SubmitBtn) started_world =
    (Rerun, mk_world
       (Some (mk_session ["Tell me about yourself."; "Tell me about yourself."] 1%nat
                ["I led the migration."] ["Clear and relevant."] false))
       (trace started_world ++
        [Called (FeedbackRun "Tell me about yourself." "I led the migration.");
         Called (QuestionRun "Backend Engineer" "5 years Go and distributed systems" "Not provided" past)])) /\
  script oracle_down inp (Some SubmitBtn) started_world =
    (Rerun, mk_world
       (Some (mk_session ["Tell me about yourself."] 0%nat
                ["I led the migration."] ["Feedback generation failed."] true))
       (trace started_world ++
        [Called (FeedbackRun "Tell me about yourself." "I led the migration.");
         ErrorMsg ("Error generating feedback: " +:+ "503 Service Unavailable");
         Called (QuestionRun "Backend Engineer" "5 years Go and distributed systems" "Not provided" past);
         ErrorMsg ("Error generating next question: " +:+ "503 Service Unavailable")])).
Proof.
  intros inp past. split.
  - rewrite (submit_turn_steps oracle_ok inp started_world started_session);
      [reflexivity | apply started_world_reachable | reflexivity | reflexivity | reflexivity
      | discriminate].
  - rewrite (submit_turn_steps oracle_down inp started_world started_session);
      [reflexivity | apply started_world_reachable | reflexivity | reflexivity | reflexivity
      | discriminate].
Defined.

(** C2 counterexample: when the next-question call raises, a valid answer
    is recorded but no new question is appended and the index stays. *)
Lemma submit_next_question_failure_no_append :
  match session_state (snd (script oracle_down (inputs_of "I led the migration.")
                              (Some SubmitBtn) started_world)) with
  | Some s => questions s = ["Tell me about yourself."] /\ current_question s = 0%nat /\
              responses s = ["I led the migration."]
  | None => False
  end.
Proof. vm_compute. auto. Qed.

(** C5: on a submitted answer, model failures are absorbed per call site:
    a raising feedback call appends "Feedback generation failed." and the
    turn still issues the next-question call; a raising next-question call
    sets the quit flag; in every case the run ends in the handler's own
    rerun, never with an escaping error. *)
Theorem submit_failures_absorbed (o : oracle) (inp : inputs) (w : world) (s : session) :
  reachable w -> session_state w = Some s -> question_shown s = true ->
  is_sentinel (user_response inp) = false -> strip (user_response inp) <> "" ->
  let question := nth (current_question s) (questions s) "" in
  let a := strip (user_response inp) in
  let qc := QuestionRun (job_title inp) (resume_text inp) (job_desc inp)
              (transcript_of (questions s) (responses s ++ [a])) in
  exists s',
    script o inp (Some SubmitBtn) w = (Rerun, mk_world (Some s') (trace (snd (script o inp (Some SubmitBtn) w)))) /\
    feedback s' = (feedback s ++ [match o (FeedbackRun question a) with
                                  | Returns f => strip f
                                  | Raises _ => "Feedback generation failed."
                                  end])%list /\
    In (Called qc) (trace (snd (script o inp (Some SubmitBtn) w))) /\
    quit s' = match o qc with Raises _ => true | Returns _ => false end.
Proof.
  intros Hr Hs Hsh Hsen Hne question a qc.
  pose proof (reachable_inv w Hr) as Hw. unfold world_inv in Hw. rewrite Hs in Hw.
  destruct (turn_inv_shown s Hw Hsh) as [_ [_ Hquit]].
  rewrite (script_submit_answer o inp w s Hr Hs Hsh Hsen Hne). simpl.
  fold question a qc.
  eexists. split; [reflexivity|]. split; [|split].
  - destruct (o qc); reflexivity.
  - apply in_or_app. right. right. apply in_or_app. right. left. reflexivity.
  - destruct (o qc); simpl; [exact Hquit | reflexivity].
Qed.

Lemma submit_failures_absorbed_witness :
  let inp := inputs_of "I led the migration." in
  exists s',
    script oracle_down inp (Some SubmitBtn) started_world =
      (Rerun, mk_world (Some s') (trace (snd (script oracle_down inp (Some SubmitBtn) started_world)))) /\
    feedback s' = ["Feedback generation failed."] /\ quit s' = true.
Proof.
  intros inp.
  destruct (submit_failures_absorbed oracle_down inp started_world started_session
              started_world_reachable started_world_session eq_refl eq_refl)
    as [s' [Hrun [Hfb [_ Hq]]]]; [discriminate|].
  exists s'. split; [exact Hrun|]. split; [exact Hfb | exact Hq].
Defined.

(** C9: every run of the script from a reachable world (Start, Submit,
    End or no button) leaves responses and feedback of equal length and
    questions equal in length to responses or one longer. *)
Theorem actions_keep_lists_aligned (o : oracle) (inp : inputs) (pressed : option button)
    (w : world) (s : session) :
  reachable w -> session_state (snd (script o inp pressed w)) = Some s -> lists_aligned s.
Proof.
  intros Hr Hs.
  pose proof (preserves_script o inp pressed w (reachable_inv w Hr)) as Hw.
  unfold world_inv in Hw. rewrite Hs in Hw.
  destruct Hw as [Hrf [[Hq _]|[Hq _]]]; split; auto.
Qed.

Lemma actions_keep_lists_aligned_witness :
  lists_aligned (mk_session ["Tell me about yourself."; "Tell me about yourself."] 1%nat
                   ["I led the migration."] ["Clear and relevant."] false).
Proof.
  apply (actions_keep_lists_aligned oracle_ok (inputs_of "I led the migration.") (Some SubmitBtn)
           started_world); [apply started_world_reachable | reflexivity].
Defined.

(** ** Runs where no handler fires *)

Lemma shown_lookup (s : session) :
  question_shown s = true ->
  questions s !! current_question s = Some (nth (current_question s) (questions s) "").
Proof.
  unfold question_shown. intros H. apply andb_prop in H as [_ H]. apply Nat.ltb_lt in H.
  destruct (nth_lookup_or_length (questions s) (current_question s) "") as [Hl|Hl]; [exact Hl | lia].
Qed.

Lemma question_section_idle (o : oracle) (inp : inputs) (pressed : option button) (w : world) (s : session) :
  clicked pressed SubmitBtn = false -> session_state w = Some s ->
  question_section o inp pressed w = (Next tt, w).
Proof.
  intros Hc Hs. destruct w as [ss tr]; simpl in Hs; subst ss.
  unfold question_section, get_session, skip, mbind, M_bind, mret, M_ret; simpl.
  destruct (question_shown s) eqn:Hsh; [|reflexivity].
  rewrite (shown_lookup s Hsh), Hc. reflexivity.
Qed.

Lemma summary_section_run (w : world) (s : session) :
  session_state w = Some s ->
  summary_section w = (Next tt, mk_world (Some s) (trace w ++ summary_events s)).
Proof.
  intros Hs. destruct w as [ss tr]; simpl in Hs; subst ss.
  unfold summary_section, summary_events; run_m.
  destruct (summary_shown s); simpl; rewrite ?app_nil_r, <- ?app_assoc; reflexivity.
Qed.

(** The script after its Start block, on a run whose button is neither
    Submit Response nor End Interview Early. *)
Lemma script_tail_idle (o : oracle) (inp : inputs) (pressed : option button) (w : world) (s : session) :
  clicked pressed SubmitBtn = false -> clicked pressed EndBtn = false ->
  session_state w = Some s ->
  (question_section o inp pressed;; summary_section;; end_section pressed) w =
    (Next tt, mk_world (Some s) (trace w ++ summary_events s)).
Proof.
  intros Hsub Hend Hs.
  unfold mbind at 1, M_bind at 1. rewrite (question_section_idle o inp pressed w s Hsub Hs).
  unfold mbind, M_bind. rewrite (summary_section_run w s Hs).
  unfold end_section. rewrite Hend. reflexivity.
Qed.

Lemma no_calls_summary_events (s : session) : forallb (fun e => negb (is_call e)) (summary_events s) = true.
Proof. unfold summary_events. destruct (summary_shown s); reflexivity. Qed.

Lemma script_submit_sentinel (o : oracle) (inp : inputs) (w : world) (s : session) :
  session_state w = Some s -> question_shown s = true -> is_sentinel (user_response inp) = true ->
  script o inp (Some SubmitBtn) w = (Rerun, mk_world (Some (set_quit true s)) (trace w)).
Proof.
  intros Hs Hsh Hsen. destruct w as [ss tr]; simpl in Hs; subst ss.
  unfold script, init_session, skip, mbind, M_bind, mret, M_ret; simpl.
  unfold question_section, get_session, mbind, M_bind; simpl.
  rewrite Hsh, (shown_lookup s Hsh). simpl.
  unfold submit_handler. rewrite Hsen. run_m. reflexivity.
Qed.

Lemma script_submit_blank (o : oracle) (inp : inputs) (w : world) (s : session) :
  session_state w = Some s -> question_shown s = true -> strip (user_response inp) = "" ->
  script o inp (Some SubmitBtn) w = (Rerun, w).
Proof.
  intros Hs Hsh Hblank. destruct w as [ss tr]; simpl in Hs; subst ss.
  unfold script, init_session, skip, mbind, M_bind, mret, M_ret; simpl.
  unfold question_section, get_session, mbind, M_bind; simpl.
  rewrite Hsh, (shown_lookup s Hsh). simpl.
  unfold submit_handler, is_sentinel. rewrite Hblank. run_m. reflexivity.
Qed.

Lemma script_submit_hidden (o : oracle) (inp : inputs) (w : world) (s : session) :
  session_state w = Some s -> question_shown s = false ->
  script o inp (Some SubmitBtn) w = (Next tt, mk_world (Some s) (trace w ++ summary_events s)).
Proof.
  intros Hs Hsh. destruct w as [ss tr]; simpl in Hs; subst ss.
  unfold script, init_session, skip, mbind at 1 2, M_bind at 1 2, mret, M_ret; simpl.
  unfold mbind at 1, M_bind at 1.
  unfold question_section at 1, get_session, mbind at 1, M_bind at 1; simpl. rewrite Hsh.
  unfold skip, mret, M_ret, mbind, M_bind.
  rewrite (summary_section_run (mk_world (Some s) tr) s eq_refl).
  run_m. reflexivity.
Qed.

Lemma script_end_run (o : oracle) (inp : inputs) (w : world) (s : session) :
  session_state w = Some s ->
  script o inp (Some EndBtn) w =
    (Rerun, mk_world (Some (set_quit true s)) (trace w ++ summary_events s)).
Proof.
  intros Hs. destruct w as [ss tr]; simpl in Hs; subst ss.
  unfold script, init_session, skip, mbind at 1 2, M_bind at 1 2, mret, M_ret; simpl.
  unfold mbind, M_bind.
  rewrite (question_section_idle o inp (Some EndBtn) (mk_world (Some s) tr) s eq_refl eq_refl).
  rewrite (summary_section_run (mk_world (Some s) tr) s eq_refl).
  run_m. reflexivity.
Qed.

Lemma script_no_button (o : oracle) (inp : inputs) (w : world) (s : session) :
  session_state w = Some s ->
  script o inp None w = (Next tt, mk_world (Some s) (trace w ++ summary_events s)).
Proof.
  intros Hs. destruct w as [ss tr]; simpl in Hs; subst ss.
  unfold script, init_session, skip, mbind at 1 2, M_bind at 1 2, mret, M_ret; simpl.
  apply (script_tail_idle o inp None (mk_world (Some s) tr) s eq_refl eq_refl eq_refl).
Qed.

(** C3: a quit/exit answer (any case, surrounding whitespace ignored) on a
    shown question, and a click on End Interview Early, both only set the
    quit flag, so that the summary is shown: no model call is made and the
    questions, responses, feedback and index are left as they were. *)
Theorem early_end_no_calls (o : oracle) (inp : inputs) (w : world) (s : session) :
  session_state w = Some s ->
  (question_shown s = true -> is_sentinel (user_response inp) = true ->
   script o inp (Some SubmitBtn) w = (Rerun, mk_world (Some (set_quit true s)) (trace w)) /\
   summary_shown (set_quit true s) = true) /\
  (exists extra,
     script o inp (Some EndBtn) w = (Rerun, mk_world (Some (set_quit true s)) (trace w ++ extra)) /\
     forallb (fun e => negb (is_call e)) extra = true /\
     summary_shown (set_quit true s) = true).
Proof.
  intros Hs. split.
  - intros Hsh Hsen. split; [apply script_submit_sentinel; assumption | reflexivity].
  - exists (summary_events s). split; [apply script_end_run, Hs |].
    split; [apply no_calls_summary_events | reflexivity].
Qed.

Lemma early_end_no_calls_witness :
  script oracle_ok (inputs_of " QUIT ") (Some SubmitBtn) started_world =
    (Rerun, mk_world (Some (set_quit true started_session)) (trace started_world)).
Proof.
  apply (early_end_no_calls oracle_ok (inputs_of " QUIT ") started_world started_session
           started_world_session); reflexivity.
Defined.

(** C10: on a shown question, submitting an answer that is empty after
    stripping changes nothing: no model call, no message, the session is
    unchanged, and the run ends in a rerun. *)
Theorem blank_answer_noop (o : oracle) (inp : inputs) (w : world) (s : session) :
  session_state w = Some s -> question_shown s = true -> strip (user_response inp) = "" ->
  script o inp (Some SubmitBtn) w = (Rerun, w).
Proof. apply script_submit_blank. Qed.

Lemma blank_answer_noop_witness :
  script oracle_ok (inputs_of "  ") (Some SubmitBtn) started_world = (Rerun, started_world).
Proof.
  apply (blank_answer_noop oracle_ok (inputs_of "  ") started_world started_session
           started_world_session); reflexivity.
Defined.

(** C7: when the job title or the resume is empty after stripping, Start
    Mock Interview shows the warning, makes no model call and leaves every
    field of the session as it was; the rest of the page renders as usual. *)
Theorem start_invalid_warns (o : oracle) (inp : inputs) (w : world) (s : session) :
  session_state w = Some s ->
  strip (job_title inp) = "" \/ strip (resume_text inp) = "" ->
  exists extra,
    script o inp (Some StartBtn) w =
      (Next tt, mk_world (Some s) (trace w ++ Warning start_warning :: extra)) /\
    forallb (fun e => negb (is_call e)) extra = true.
Proof.
  intros Hs Hblank. destruct w as [ss tr]; simpl in Hs; subst ss.
  exists (summary_events s). split; [|apply no_calls_summary_events].
  unfold script, init_session, skip, mbind at 1 2, M_bind at 1 2, mret, M_ret; simpl.
  unfold start_handler.
  replace (String.eqb (strip (job_title inp)) "" || String.eqb (strip (resume_text inp)) "")
    with true by (destruct Hblank as [E|E]; rewrite E; [reflexivity | symmetry; apply orb_true_r]).
  unfold emit, mbind at 1, M_bind at 1; simpl.
  rewrite (question_section_idle o inp (Some StartBtn)
             (mk_world (Some s) (tr ++ [Warning start_warning])) s eq_refl eq_refl).
  unfold mbind, M_bind.
  rewrite (summary_section_run (mk_world (Some s) (tr ++ [Warning start_warning])) s eq_refl).
  run_m. rewrite <- app_assoc. reflexivity.
Qed.

Lemma start_invalid_warns_witness :
  exists extra,
    script oracle_ok (mk_inputs " " "resume" false "" "") (Some StartBtn) started_world =
      (Next tt, mk_world (Some started_session)
                 (trace started_world ++ Warning start_warning :: extra)) /\
    forallb (fun e => negb (is_call e)) extra = true.
Proof.
  apply (start_invalid_warns oracle_ok (mk_inputs " " "resume" false "" "") started_world
           started_session started_world_session).
  left. reflexivity.
Defined.

Lemma log_entries_by_index (qs rs fs : list string) (k : nat) :
  length rs = length fs -> (length rs <= length qs)%nat ->
  map (fun '(i, (q, a, f)) => log_entry i q a f) (enumerate_from k (zip3 qs rs fs)) =
  map (fun i => log_entry (k + i) (nth i qs "") (nth i rs "") (nth i fs "")) (seq 0 (length rs)).
Proof.
  revert qs fs k. induction rs as [|a rs IH]; intros qs fs k Hrf Hq.
  - destruct qs, fs; reflexivity.
  - destruct qs as [|q qs]; [simpl in Hq; lia|]. destruct fs as [|f fs]; [discriminate|].
    simpl in Hrf, Hq |- *. rewrite Nat.add_0_r. f_equal.
    rewrite (IH qs fs (S k)) by lia. rewrite <- seq_shift, map_map.
    apply map_ext. intros i. rewrite Nat.add_succ_r. reflexivity.
Qed.

(** C4: when responses and feedback both have length [n] and there are at
    least [n] questions, the exported report is exactly the [n] triples
    [Q{i}/A{i}/Feedback] for the turns [i = 1..n], in order, each made of
    the [i]-th question, answer and feedback, joined by blank lines. *)
Theorem full_log_one_triple_per_turn (s : session) (n : nat) :
  length (responses s) = n -> length (feedback s) = n -> (n <= length (questions s))%nat ->
  full_log s =
    join_blank (map (fun i => log_entry (S i) (nth i (questions s) "") (nth i (responses s) "")
                                        (nth i (feedback s) ""))
                    (seq 0 n)).
Proof.
  intros Hr Hf Hq. unfold full_log.
  rewrite log_entries_by_index by lia. rewrite Hr. reflexivity.
Qed.

Lemma full_log_one_triple_per_turn_witness :
  full_log (mk_session ["q1"; "q2"; "q3"] 2%nat ["a1"; "a2"] ["f1"; "f2"] true) =
    join_blank [log_entry 1%nat "q1" "a1" "f1"; log_entry 2%nat "q2" "a2" "f2"].
Proof.
  rewrite (full_log_one_triple_per_turn _ 2%nat); [reflexivity | reflexivity | reflexivity | simpl; lia].
Defined.

Lemma script_start_invalid (o : oracle) (inp : inputs) (w : world) (s : session) :
  session_state w = Some s ->
  String.eqb (strip (job_title inp)) "" || String.eqb (strip (resume_text inp)) "" = true ->
  script o inp (Some StartBtn) w =
    (Next tt, mk_world (Some s) (trace w ++ Warning start_warning :: summary_events s)).
Proof.
  intros Hs Hv. destruct w as [ss tr]; simpl in Hs; subst ss.
  unfold script, init_session, skip, mbind at 1 2, M_bind at 1 2, mret, M_ret; simpl.
  unfold start_handler. rewrite Hv.
  unfold emit, mbind at 1, M_bind at 1; simpl.
  rewrite (question_section_idle o inp (Some StartBtn)
             (mk_world (Some s) (tr ++ [Warning start_warning])) s eq_refl eq_refl).
  unfold mbind, M_bind.
  rewrite (summary_section_run (mk_world (Some s) (tr ++ [Warning start_warning])) s eq_refl).
  run_m. rewrite <- app_assoc. reflexivity.
Qed.

Lemma extends_refl (l : list string) : extends_by_at_most_one l l.
Proof. left. reflexivity. Qed.

Lemma extends_snoc (l : list string) (x : string) : extends_by_at_most_one l (l ++ [x])%list.
Proof. right. exists x. reflexivity. Qed.

(** C6 counterexample: ending the session with End Interview Early does
    not clear it; the question asked so far is kept. *)
Lemma end_early_keeps_questions :
  match session_state (snd (script oracle_ok (inputs_of "") (Some EndBtn) started_world)) with
  | Some s => questions s = ["Tell me about yourself."] /\ quit s = true
  | None => False
  end.
Proof. vm_compute. auto. Qed.

(** C6 (as amended): the session is created empty on its first run; a
    Start with non-empty title and resume resets every field before asking
    for the first question, leaving at most that one question; every other
    action appends at most one element to the end of each list; ending the
    session (End Interview Early, or a quit/exit answer) only sets the quit
    flag and keeps the lists and the index. *)
Theorem session_lifecycle :
  (forall (o : oracle) (inp : inputs) (tr : list event),
     session_state (snd (script o inp None (mk_world None tr))) = Some empty_session) /\
  (forall (o : oracle) (inp : inputs) (w : world),
     strip (job_title inp) <> "" -> strip (resume_text inp) <> "" ->
     exists qs, session_state (snd (script o inp (Some StartBtn) w)) =
                  Some (set_questions qs empty_session) /\ (length qs <= 1)%nat) /\
  (forall (o : oracle) (inp : inputs) (pressed : option button) (w : world) (s s' : session),
     reachable w ->
     (pressed <> Some StartBtn \/ strip (job_title inp) = "" \/ strip (resume_text inp) = "") ->
     session_state w = Some s ->
     session_state (snd (script o inp pressed w)) = Some s' ->
     extends_by_at_most_one (questions s) (questions s') /\
     extends_by_at_most_one (responses s) (responses s') /\
     extends_by_at_most_one (feedback s) (feedback s')) /\
  (forall (o : oracle) (inp : inputs) (w : world) (s : session),
     session_state w = Some s ->
     session_state (snd (script o inp (Some EndBtn) w)) = Some (set_quit true s) /\
     (question_shown s = true -> is_sentinel (user_response inp) = true ->
      session_state (snd (script o inp (Some SubmitBtn) w)) = Some (set_quit true s))).
Proof.
  split; [|split; [|split]].
  - intros o inp tr. rewrite (script_no_button o inp (mk_world (Some empty_session) tr) empty_session eq_refl
      : script o inp None (mk_world None tr) = _). reflexivity.
  - intros o inp w Hj Hr. rewrite (script_start_valid o inp w Hj Hr). simpl.
    destruct (o _); simpl; eexists; (split; [reflexivity | simpl; lia]).
  - intros o inp pressed w s s' Hreach Hns Hs Hs'.
    destruct pressed as [[| |]|].
    + destruct Hns as [Hns|Hblank]; [congruence|].
      assert (Hv : String.eqb (strip (job_title inp)) "" || String.eqb (strip (resume_text inp)) "" = true)
        by (destruct Hblank as [E|E]; rewrite E; [reflexivity | apply orb_true_r]).
      rewrite (script_start_invalid o inp w s Hs Hv) in Hs'. simpl in Hs'.
      injection Hs' as <-. auto using extends_refl.
    + destruct (question_shown s) eqn:Hsh.
      * destruct (is_sentinel (user_response inp)) eqn:Hsen.
        { rewrite (script_submit_sentinel o inp w s Hs Hsh Hsen) in Hs'. simpl in Hs'.
          injection Hs' as <-. simpl. auto using extends_refl. }
        destruct (String.eqb (strip (user_response inp)) "") eqn:Hemp.
        { apply String.eqb_eq in Hemp.
          rewrite (script_submit_blank o inp w s Hs Hsh Hemp) in Hs'. simpl in Hs'.
          rewrite Hs in Hs'.
          injection Hs' as <-. auto using extends_refl. }
        apply String.eqb_neq in Hemp.
        rewrite (script_submit_answer o inp w s Hreach Hs Hsh Hsen Hemp) in Hs'. simpl in Hs'.
        injection Hs' as <-.
        destruct (o (QuestionRun _ _ _ _)); simpl; auto using extends_refl, extends_snoc.
      * rewrite (script_submit_hidden o inp w s Hs Hsh) in Hs'. simpl in Hs'.
        injection Hs' as <-. auto using extends_refl.
    + rewrite (script_end_run o inp w s Hs) in Hs'. simpl in Hs'.
      injection Hs' as <-. simpl. auto using extends_refl.
    + rewrite (script_no_button o inp w s Hs) in Hs'. simpl in Hs'.
      injection Hs' as <-. auto using extends_refl.
  - intros o inp w s Hs. split.
    + rewrite (script_end_run o inp w s Hs). reflexivity.
    + intros Hsh Hsen. rewrite (script_submit_sentinel o inp w s Hs Hsh Hsen). reflexivity.
Qed.

Lemma session_lifecycle_witness :
  session_state (snd (script oracle_ok (inputs_of "") None fresh_world)) = Some empty_session /\
  (exists qs, session_state (snd (script oracle_ok (inputs_of "") (Some StartBtn) fresh_world)) =
                Some (set_questions qs empty_session) /\ (length qs <= 1)%nat) /\
  (extends_by_at_most_one (questions started_session) (questions started_session) /\
   extends_by_at_most_one (responses started_session) (responses started_session) /\
   extends_by_at_most_one (feedback started_session) (feedback started_session)) /\
  session_state (snd (script oracle_ok (inputs_of "") (Some EndBtn) started_world)) =
    Some (set_quit true started_session) /\
  session_state (snd (script oracle_ok (inputs_of " Quit ") (Some SubmitBtn) started_world)) =
    Some (set_quit true started_session).
Proof.
  destruct session_lifecycle as [Hinit [Hstart [Hgrow Hend]]].
  split; [apply Hinit|]. split.
  - apply (Hstart oracle_ok (inputs_of "") fresh_world); discriminate.
  - split.
    + apply (Hgrow oracle_ok (mk_inputs " " "resume" false "" "") (Some StartBtn) started_world
               started_session started_session started_world_reachable);
        [right; left; reflexivity | reflexivity | reflexivity].
    + split.
      * apply (Hend oracle_ok (inputs_of "") started_world started_session started_world_session).
      * apply (Hend oracle_ok (inputs_of " Quit ") started_world started_session started_world_session);
          reflexivity.
Defined.

(** C8 counterexample: with the key absent from the process environment
    but present in the [.env] file, start-up does not halt; with the key
    set to the empty string in the process environment, it does halt. *)
Lemma api_key_check_dotenv_and_blank :
  fst (app env_empty dotenv_with_key llm_ok oracle_ok (inputs_of "") None fresh_world) = Next tt /\
  fst (app env_blank_key ∅ llm_ok oracle_ok (inputs_of "") None fresh_world) = Stop.
Proof. split; reflexivity. Qed.

(** C8 (as amended): after [load_dotenv] adds the [.env] entries for keys
    the process environment does not set, a GOOGLE_API_KEY that is unset
    or empty makes the run show the missing-key error and halt, with the
    session untouched and no model call; a non-empty key passes the check,
    after which a failing model client constructor shows
    "Failed to initialize language model: " with its error and halts, again
    with the session untouched, and a successful one lets the run go on to
    the interview script. *)
Theorem api_key_check (env dotenv : gmap string string) (llm_init : string -> option string)
    (o : oracle) (inp : inputs) (pressed : option button) (w : world) :
  let api_key := load_dotenv dotenv env !! api_key_name in
  (falsy api_key = true ->
   app env dotenv llm_init o inp pressed w =
     (Stop, mk_world (session_state w) (trace w ++ [ErrorMsg missing_key_msg]))) /\
  (forall k, api_key = Some k -> k <> "" ->
   app env dotenv llm_init o inp pressed w =
     match llm_init k with
     | Some e => (Stop, mk_world (session_state w)
                    (trace w ++ [ErrorMsg ("Failed to initialize language model: " +:+ e)]))
     | None => script o inp pressed w
     end).
Proof.
  intros api_key. split.
  - unfold falsy. intros Hf.
    unfold app, startup. fold api_key.
    destruct api_key as [k|]; [apply String.eqb_eq in Hf; subst k|]; run_m; reflexivity.
  - intros k Hk Hne. apply eqb_false_of_neq in Hne.
    unfold app, startup. fold api_key. rewrite Hk, Hne.
    destruct (llm_init k) as [e|]; [run_m; reflexivity|].
    unfold skip, mbind, M_bind, mret, M_ret. destruct (script o inp pressed w); reflexivity.
Qed.

Lemma api_key_check_witness :
  app env_blank_key ∅ llm_ok oracle_ok (inputs_of "") None fresh_world =
    (Stop, mk_world None [ErrorMsg missing_key_msg]) /\
  app env_empty dotenv_with_key llm_ok oracle_ok (inputs_of "") None fresh_world =
    script oracle_ok (inputs_of "") None fresh_world /\
  app env_empty dotenv_with_key llm_bad_key oracle_ok (inputs_of "") None fresh_world =
    (Stop, mk_world None [ErrorMsg "Failed to initialize language model: API key not valid"]).
Proof.
  split; [|split].
  - apply (api_key_check env_blank_key ∅ llm_ok oracle_ok (inputs_of "") None fresh_world).
    reflexivity.
  - apply (proj2 (api_key_check env_empty dotenv_with_key llm_ok oracle_ok (inputs_of "") None fresh_world)
             "test-key"); [reflexivity | discriminate].
  - apply (proj2 (api_key_check env_empty dotenv_with_key llm_bad_key oracle_ok (inputs_of "") None fresh_world)
             "test-key"); [reflexivity | discriminate].
Defined.

(** ** Further properties of the page *)

Lemma lstrip_idem (s : string) : lstrip (lstrip s) = lstrip s.
Proof.
  induction s as [|c s IH]; [reflexivity|]. simpl.
  destruct (is_py_space c) eqn:Hc; [exact IH | simpl; rewrite Hc; reflexivity].
Qed.

Lemma rstrip_idem (s : string) : rstrip (rstrip s) = rstrip s.
Proof.
  induction s as [|c s IH]; [reflexivity|]. simpl.
  destruct (String.eqb (rstrip s) "" && is_py_space c) eqn:Hc; [reflexivity|].
  simpl. rewrite IH, Hc. reflexivity.
Qed.

(** [rstrip] keeps the first character unless it empties the string. *)
Lemma rstrip_head (c : ascii) (s : string) :
  rstrip (String c s) = "" \/ exists r, rstrip (String c s) = String c r.
Proof.
  simpl. destruct (String.eqb (rstrip s) "" && is_py_space c); [left | right; eexists]; reflexivity.
Qed.

Lemma lstrip_rstrip_lstrip (s : string) : lstrip (rstrip (lstrip s)) = rstrip (lstrip s).
Proof.
  induction s as [|c s IH]; [reflexivity|]. simpl lstrip at 2 3.
  destruct (is_py_space c) eqn:Hc; [exact IH|].
  destruct (rstrip_head c s) as [E|[r E]]; rewrite E; [reflexivity|].
  simpl. rewrite Hc. reflexivity.
Qed.

Lemma strip_idem (s : string) : strip (strip s) = strip s.
Proof. unfold strip. rewrite lstrip_rstrip_lstrip, rstrip_idem. reflexivity. Qed.

Lemma is_sentinel_strip (s : string) : is_sentinel (strip s) = is_sentinel s.
Proof. unfold is_sentinel. rewrite strip_idem. reflexivity. Qed.

Lemma turn_inv_empty : turn_inv empty_session.
Proof. unfold turn_inv; simpl. split; auto. Qed.

(** A run on a session that does not exist yet is a run on the empty one. *)
Lemma script_fresh (o : oracle) (inp : inputs) (pressed : option button) (tr : list event) :
  script o inp pressed (mk_world None tr) = script o inp pressed (mk_world (Some empty_session) tr).
Proof. reflexivity. Qed.

Lemma script_start_valid_b (o : oracle) (inp : inputs) (w : world) :
  String.eqb (strip (job_title inp)) "" || String.eqb (strip (resume_text inp)) "" = false ->
  script o inp (Some StartBtn) w =
    let c := QuestionRun (job_title inp) (resume_text inp) (job_desc inp) "" in
    match o c with
    | Returns out =>
        (Rerun, mk_world (Some (mk_session [strip out] 0%nat [] [] false)) (trace w ++ [Called c]))
    | Raises e =>
        (Stop, mk_world (Some empty_session)
                 (trace w ++ [Called c; ErrorMsg ("Error generating question: " +:+ e)]))
    end.
Proof.
  intros Hv. apply orb_false_iff in Hv as [Hj Hr].
  apply script_start_valid; intros E; rewrite E in *; discriminate.
Qed.

(** [script_submit_answer] for any state that keeps the turn invariant. *)
Lemma script_submit_answer_inv (o : oracle) (inp : inputs) (w : world) (s : session) :
  session_state w = Some s -> turn_inv s -> question_shown s = true ->
  is_sentinel (user_response inp) = false -> strip (user_response inp) <> "" ->
  let question := nth (current_question s) (questions s) "" in
  let a := strip (user_response inp) in
  let fb := o (FeedbackRun question a) in
  let s1 := append_feedback (feedback_text fb) (append_response a s) in
  let qc := QuestionRun (job_title inp) (resume_text inp) (job_desc inp)
              (transcript_of (questions s) (responses s ++ [a])) in
  script o inp (Some SubmitBtn) w =
    (Rerun, mk_world (Some (fst (next_question_effect (o qc) s1)))
              (trace w ++ [Called (FeedbackRun question a)] ++ feedback_errors fb ++
               [Called qc] ++ snd (next_question_effect (o qc) s1))).
Proof.
  intros Hs Hw Hsh Hsen Hne.
  destruct (turn_inv_shown s Hw Hsh) as [Hq [Hc Hquit]].
  destruct w as [ss tr]; simpl in Hs; subst ss.
  unfold script, init_session, question_section, get_session, skip, mbind, M_bind, mret, M_ret.
  simpl. rewrite Hsh, (shown_lookup s Hsh). simpl.
  rewrite (submit_handler_answer o inp _ (mk_world (Some s) tr) s) by (auto; lia).
  reflexivity.
Qed.

(** Case split of one run on a session [s] keeping the turn invariant:
    rewrites the run into its explicit result in every branch. *)
Ltac split_run o inp pressed w s Hs Hinv :=
  destruct pressed as [[| |]|];
  [ let Hv := fresh "Hv" in
    destruct (String.eqb (strip (job_title inp)) "" || String.eqb (strip (resume_text inp)) "") eqn:Hv;
    [ rewrite (script_start_invalid o inp w s Hs Hv)
    | rewrite (script_start_valid_b o inp w Hv); simpl; try destruct (o (QuestionRun _ _ _ _)) ]
  | let Hsh := fresh "Hsh" in let Hsen := fresh "Hsen" in let Hemp := fresh "Hemp" in
    destruct (question_shown s) eqn:Hsh;
    [ destruct (is_sentinel (user_response inp)) eqn:Hsen;
      [ rewrite (script_submit_sentinel o inp w s Hs Hsh Hsen)
      | destruct (String.eqb (strip (user_response inp)) "") eqn:Hemp;
        [ apply String.eqb_eq in Hemp; rewrite (script_submit_blank o inp w s Hs Hsh Hemp)
        | apply String.eqb_neq in Hemp;
          rewrite (script_submit_answer_inv o inp w s Hs Hinv Hsh Hsen Hemp); simpl;
          try destruct (o (QuestionRun _ _ _ _)) ] ]
    | rewrite (script_submit_hidden o inp w s Hs Hsh) ]
  | rewrite (script_end_run o inp w s Hs)
  | rewrite (script_no_button o inp w s Hs) ].

Lemma calls_summary_events (s : session) : calls_made (summary_events s) = 0%nat.
Proof. unfold summary_events. destruct (summary_shown s); reflexivity. Qed.

Lemma calls_made_app (l1 l2 : list event) : calls_made (l1 ++ l2) = (calls_made l1 + calls_made l2)%nat.
Proof. unfold calls_made. rewrite filter_app, length_app. reflexivity. Qed.

Lemma run_no_crash_inv (o : oracle) (inp : inputs) (pressed : option button) (w : world) (s : session) :
  session_state w = Some s -> turn_inv s -> fst (script o inp pressed w) <> Crash.
Proof.
  intros Hs Hinv. split_run o inp pressed w s Hs Hinv; simpl; discriminate.
Qed.

(** No run of the page from a reachable state ends in an uncaught Python
    error: the session keys always exist and [questions[idx]] and
    [questions[i]] in the transcript are always in range. *)
Theorem reachable_run_no_crash (o : oracle) (inp : inputs) (pressed : option button) (w : world) :
  reachable w -> fst (script o inp pressed w) <> Crash.
Proof.
  intros Hr. pose proof (reachable_inv w Hr) as Hw. unfold world_inv in Hw.
  destruct w as [[s|] tr].
  - exact (run_no_crash_inv o inp pressed (mk_world (Some s) tr) s eq_refl Hw).
  - rewrite script_fresh. exact (run_no_crash_inv o inp pressed (mk_world (Some empty_session) tr) empty_session eq_refl turn_inv_empty).
Qed.

Lemma reachable_run_no_crash_witness :
  fst (script oracle_down (inputs_of "My answer") (Some SubmitBtn) started_world) <> Crash.
Proof. apply reachable_run_no_crash, started_world_reachable. Defined.

Lemma run_calls_inv (o : oracle) (inp : inputs) (pressed : option button) (w : world) (s : session) :
  session_state w = Some s -> turn_inv s ->
  exists extra, trace (snd (script o inp pressed w)) = (trace w ++ extra)%list /\
                (calls_made extra <= call_budget pressed)%nat.
Proof.
  intros Hs Hinv. split_run o inp pressed w s Hs Hinv;
    try destruct (o (FeedbackRun _ _)); simpl;
    first [eexists; split; [reflexivity|] | exists []; split; [rewrite app_nil_r; reflexivity|]];
    unfold calls_made, summary_events; try destruct (summary_shown s); simpl; lia.
Qed.

(** One run makes at most one model call when Start Mock Interview was
    clicked, at most two when Submit Response was clicked, and none
    otherwise. *)
Theorem reachable_run_call_budget (o : oracle) (inp : inputs) (pressed : option button) (w : world) :
  reachable w ->
  exists extra, trace (snd (script o inp pressed w)) = (trace w ++ extra)%list /\
                (calls_made extra <= call_budget pressed)%nat.
Proof.
  intros Hr. pose proof (reachable_inv w Hr) as Hw. unfold world_inv in Hw.
  destruct w as [[s|] tr].
  - exact (run_calls_inv o inp pressed (mk_world (Some s) tr) s eq_refl Hw).
  - rewrite script_fresh. exact (run_calls_inv o inp pressed (mk_world (Some empty_session) tr) empty_session eq_refl turn_inv_empty).
Qed.

Lemma reachable_run_call_budget_witness :
  exists extra, trace (snd (script oracle_ok (inputs_of "My answer") (Some SubmitBtn) started_world)) =
                  (trace started_world ++ extra)%list /\ (calls_made extra <= 2)%nat.
Proof. apply (reachable_run_call_budget _ _ (Some SubmitBtn)), started_world_reachable. Defined.

Lemma set_quit_same (s : session) : quit s = true -> set_quit true s = s.
Proof. destruct s; simpl; intros ->; reflexivity. Qed.

Lemma quit_hides_question (s : session) : quit s = true -> question_shown s = false.
Proof. unfold question_shown. intros ->. reflexivity. Qed.

(** Once the quit flag is set, every run that does not click Start Mock
    Interview leaves the session exactly as it is and makes no model
    call. *)
Theorem quit_is_absorbing (o : oracle) (inp : inputs) (pressed : option button) (w : world) (s : session) :
  session_state w = Some s -> quit s = true -> pressed <> Some StartBtn ->
  session_state (snd (script o inp pressed w)) = Some s /\
  exists extra, trace (snd (script o inp pressed w)) = (trace w ++ extra)%list /\
                calls_made extra = 0%nat.
Proof.
  intros Hs Hq Hp. pose proof (quit_hides_question s Hq) as Hsh.
  destruct pressed as [[| |]|]; [congruence | | |].
  - rewrite (script_submit_hidden o inp w s Hs Hsh). simpl.
    split; [reflexivity | eexists; split; [reflexivity | apply calls_summary_events]].
  - rewrite (script_end_run o inp w s Hs), (set_quit_same s Hq). simpl.
    split; [reflexivity | eexists; split; [reflexivity | apply calls_summary_events]].
  - rewrite (script_no_button o inp w s Hs). simpl.
    split; [reflexivity | eexists; split; [reflexivity | apply calls_summary_events]].
Qed.

Lemma quit_is_absorbing_witness :
  session_state (snd (script oracle_ok (inputs_of "Another answer") (Some SubmitBtn)
                        (mk_world (Some (set_quit true started_session)) []))) =
    Some (set_quit true started_session).
Proof.
  apply (quit_is_absorbing oracle_ok (inputs_of "Another answer") (Some SubmitBtn)
           (mk_world (Some (set_quit true started_session)) []) (set_quit true started_session));
    [reflexivity | reflexivity | discriminate].
Defined.

(** In every reachable state the page never shows the current question and
    the summary together; once a question exists one of them is shown; and
    the question shown is always the last one generated. *)
Theorem reachable_views (w : world) (s : session) :
  reachable w -> session_state w = Some s ->
  ~ (question_shown s = true /\ summary_shown s = true) /\
  (questions s <> [] -> question_shown s = true \/ summary_shown s = true) /\
  (question_shown s = true -> S (current_question s) = length (questions s)).
Proof.
  intros Hr Hs. pose proof (reachable_inv w Hr) as Hw. unfold world_inv in Hw. rewrite Hs in Hw.
  unfold question_shown, summary_shown.
  destruct Hw as [_ [[Hq Hc]|[Hq [Hquit|Hnil]]]].
  - assert (Hlt : (current_question s <? length (questions s))%nat = true) by (apply Nat.ltb_lt; lia).
    assert (Hle : (length (questions s) <=? current_question s)%nat = false) by (apply Nat.leb_gt; lia).
    assert (Hne : bool_decide (questions s = []) = false).
    { apply bool_decide_eq_false_2. intros E. rewrite E in Hq. discriminate. }
    rewrite Hlt, Hle, Hne.
    destruct (quit s); simpl.
    + split; [intros [H _]; discriminate | split; [intros _; right; reflexivity | discriminate]].
    + split; [intros [_ H]; discriminate | split; [intros _; left; reflexivity | intros _; lia]].
  - rewrite Hquit. simpl.
    split; [intros [H _]; discriminate | split; [intros _; right; reflexivity | discriminate]].
  - rewrite Hnil, bool_decide_eq_true_2 by reflexivity. simpl. rewrite andb_false_r. simpl.
    split; [intros [H _]; discriminate | split; [intros H; congruence | discriminate]].
Qed.

Lemma reachable_views_witness :
  ~ (question_shown started_session = true /\ summary_shown started_session = true).
Proof. apply (reachable_views started_world); [apply started_world_reachable | reflexivity]. Defined.

(** In every reachable state the downloadable report holds one
    [Q{i}/A{i}/Feedback] triple for each answered turn, none missing and
    none extra, including after an early end or a failed next question. *)
Theorem reachable_report_all_turns (w : world) (s : session) :
  reachable w -> session_state w = Some s ->
  full_log s =
    join_blank (map (fun i => log_entry (S i) (nth i (questions s) "") (nth i (responses s) "")
                                        (nth i (feedback s) ""))
                    (seq 0 (length (responses s)))).
Proof.
  intros Hr Hs. pose proof (reachable_inv w Hr) as Hw. unfold world_inv in Hw. rewrite Hs in Hw.
  destruct Hw as [Hrf Hq]. unfold full_log.
  rewrite log_entries_by_index by (auto; destruct Hq as [[H _]|[H _]]; lia). reflexivity.
Qed.

Lemma reachable_report_all_turns_witness :
  full_log (mk_session ["Tell me about yourself."; "Tell me about yourself."] 1%nat
                       ["I led the migration."; "I mentored two juniors."]
                       ["Clear and relevant."; feedback_failed] true) =
    join_blank [log_entry 1 "Tell me about yourself." "I led the migration." "Clear and relevant.";
                log_entry 2 "Tell me about yourself." "I mentored two juniors." feedback_failed].
Proof.
  rewrite (reachable_report_all_turns answered_world).
  - reflexivity.
  - apply reach_run, reach_run, started_world_reachable.
  - reflexivity.
Defined.

Lemma clean_empty : clean_session empty_session.
Proof. unfold clean_session; simpl. auto. Qed.

Lemma run_keeps_clean (o : oracle) (inp : inputs) (pressed : option button) (w : world) (s : session) :
  session_state w = Some s -> turn_inv s -> clean_session s ->
  match session_state (snd (script o inp pressed w)) with
  | Some s' => clean_session s'
  | None => False
  end.
Proof.
  intros Hs Hinv Hc. split_run o inp pressed w s Hs Hinv;
    try destruct (o (FeedbackRun _ _)); simpl; rewrite ?Hs;
    unfold clean_session in *; simpl;
    destruct Hc as [Hr [Hq Hf]];
    rewrite ?Forall_app; repeat split; auto;
    repeat constructor; rewrite ?strip_idem, ?is_sentinel_strip; auto.
Qed.

(** In every reachable state the stored questions, answers and feedback
    are trimmed of surrounding whitespace, and no stored answer is blank or
    a quit/exit sentinel. *)
Theorem reachable_clean_texts (w : world) (s : session) :
  reachable w -> session_state w = Some s -> clean_session s.
Proof.
  intros Hr. revert s.
  induction Hr as [tr | o inp pressed w Hr IH]; intros s' Hs; [discriminate|].
  pose proof (reachable_inv w Hr) as Hw. unfold world_inv in Hw.
  destruct w as [[s|] tr].
  - pose proof (run_keeps_clean o inp pressed (mk_world (Some s) tr) s eq_refl Hw (IH s eq_refl)) as H.
    rewrite Hs in H. exact H.
  - rewrite script_fresh in Hs.
    pose proof (run_keeps_clean o inp pressed (mk_world (Some empty_session) tr) empty_session
                  eq_refl turn_inv_empty clean_empty) as H.
    rewrite Hs in H. exact H.
Qed.

Lemma reachable_clean_texts_witness : clean_session started_session.
Proof. apply (reachable_clean_texts started_world); [apply started_world_reachable | reflexivity]. Defined.

(** With Upload PDF chosen, when no file is uploaded or PyMuPDF cannot
    read it, the resume text is empty: Start Mock Interview then shows the
    PDF error (if any) and the missing-resume warning, makes no model call
    and leaves the session as it was. *)
Theorem unreadable_resume_blocks_start (o : oracle) (fm : form) (w : world) (s : session) :
  session_state w = Some s -> f_resume_option fm = UploadPdf ->
  (f_uploaded_file fm = None \/ exists e, f_uploaded_file fm = Some (PdfError e)) ->
  let pdf_errors := match f_uploaded_file fm with
                    | Some (PdfError e) => [ErrorMsg ("Error reading PDF: " +:+ e)]
                    | _ => []
                    end in
  page o fm (Some StartBtn) w =
    (Next tt, mk_world (Some s) (trace w ++ pdf_errors ++ Warning start_warning :: summary_events s)).
Proof.
  intros Hs Hopt Hfile pdf_errors. subst pdf_errors.
  destruct w as [ss tr]; simpl in Hs; subst ss.
  unfold page, init_session, read_resume, mbind at 1 2, M_bind at 1 2. simpl. rewrite Hopt.
  assert (Hv : forall t, String.eqb (strip t) "" || String.eqb (strip "") "" = true)
    by (intros t; apply orb_true_r).
  destruct Hfile as [Hn|[e He]]; rewrite ?Hn, ?He; simpl.
  - rewrite (script_start_invalid o (inputs_from fm "") (mk_world (Some s) tr) s eq_refl (Hv _)).
    reflexivity.
  - rewrite (script_start_invalid o (inputs_from fm "")
               (mk_world (Some s) (tr ++ [ErrorMsg ("Error reading PDF: " +:+ e)])) s eq_refl (Hv _)).
    simpl. rewrite <- app_assoc. reflexivity.
Qed.

Lemma unreadable_resume_blocks_start_witness :
  page oracle_ok (mk_form "Backend Engineer" UploadPdf "" (Some (PdfError "damaged")) false "" "")
    (Some StartBtn) started_world =
  (Next tt, mk_world (Some started_session)
              (trace started_world ++ [ErrorMsg "Error reading PDF: damaged"] ++
               Warning start_warning :: summary_events started_session)).
Proof.
  apply (unreadable_resume_blocks_start oracle_ok
           (mk_form "Backend Engineer" UploadPdf "" (Some (PdfError "damaged")) false "" "")
           started_world started_session
           started_world_session); [reflexivity | right; exists "damaged"; reflexivity].
Defined.

(** After a submitted answer (non-blank, not a sentinel) the next run of
    the page shows the newly generated question when the next-question call
    returned, and the summary instead when it raised. *)
Theorem submit_then_next_view (o : oracle) (inp : inputs) (w : world) (s : session) :
  reachable w -> session_state w = Some s -> question_shown s = true ->
  is_sentinel (user_response inp) = false -> strip (user_response inp) <> "" ->
  let a := strip (user_response inp) in
  let qc := QuestionRun (job_title inp) (resume_text inp) (job_desc inp)
              (transcript_of (questions s) (responses s ++ [a])) in
  match session_state (snd (script o inp (Some SubmitBtn) w)) with
  | Some s' =>
      match o qc with
      | Returns nq => question_shown s' = true /\ nth (current_question s') (questions s') "" = strip nq
      | Raises _ => question_shown s' = false /\ summary_shown s' = true
      end
  | None => False
  end.
Proof.
  intros Hr Hs Hsh Hsen Hne a qc.
  pose proof (reachable_inv w Hr) as Hw. unfold world_inv in Hw. rewrite Hs in Hw.
  destruct (turn_inv_shown s Hw Hsh) as [Hq [Hc Hquit]].
  rewrite (script_submit_answer o inp w s Hr Hs Hsh Hsen Hne). simpl.
  fold a qc. destruct (o qc) as [nq|e]; simpl.
  - split.
    + unfold question_shown; simpl. rewrite Hquit, length_app. simpl.
      assert (Hne' : bool_decide ((questions s ++ [strip nq])%list = []) = false).
      { apply bool_decide_eq_false_2. intros E. apply app_eq_nil in E as [_ E]. discriminate. }
      rewrite Hne'. simpl. apply Nat.ltb_lt. lia.
    + rewrite app_nth2 by lia. replace (S (current_question s) - length (questions s))%nat with 0%nat by lia.
      reflexivity.
  - split; reflexivity.
Qed.

Lemma submit_then_next_view_witness :
  match session_state (snd (script oracle_ok (inputs_of "I led the migration.") (Some SubmitBtn) started_world)) with
  | Some s' => question_shown s' = true /\ nth (current_question s') (questions s') "" = "Tell me about yourself."
  | None => False
  end.
Proof.
  apply (submit_then_next_view oracle_ok (inputs_of "I led the migration.") started_world started_session
           started_world_reachable started_world_session eq_refl eq_refl).
  discriminate.
Defined.

(** A run triggered by no button (typing into a widget, switching the
    resume option) never changes the session and never calls the model;
    it offers the report download exactly when the summary is shown. *)
Theorem plain_rerun_is_passive (o : oracle) (inp : inputs) (w : world) (s : session) :
  session_state w = Some s ->
  fst (script o inp None w) = Next tt /\
  session_state (snd (script o inp None w)) = Some s /\
  exists extra, trace (snd (script o inp None w)) = (trace w ++ extra)%list /\
                calls_made extra = 0%nat /\
                (In (Download (full_log s)) extra <-> summary_shown s = true).
Proof.
  intros Hs. rewrite (script_no_button o inp w s Hs). simpl.
  split; [reflexivity | split; [reflexivity|]].
  exists (summary_events s). split; [reflexivity | split; [apply calls_summary_events|]].
  unfold summary_events. destruct (summary_shown s); simpl.
  - split; [reflexivity | intros _; right; left; reflexivity].
  - split; [intros [] | discriminate].
Qed.

Lemma plain_rerun_is_passive_witness :
  fst (script oracle_ok (inputs_of "") None started_world) = Next tt.
Proof. apply (plain_rerun_is_passive oracle_ok (inputs_of "") started_world started_session started_world_session). Defined.

(** With Upload PDF chosen and a readable file, the page texts joined by
    newlines are the resume: a Start with a non-blank title and non-blank
    extracted text makes exactly one model call, the first-question call
    with that text as the resume and no past answers. *)
Theorem pdf_pages_are_the_resume (o : oracle) (fm : form) (pages : list string) (w : world) (s : session) :
  session_state w = Some s -> f_resume_option fm = UploadPdf ->
  f_uploaded_file fm = Some (PdfPages pages) ->
  strip (f_job_title fm) <> "" -> strip (String.concat nl pages) <> "" ->
  exists rest,
    trace (snd (page o fm (Some StartBtn) w)) =
      (trace w ++ Called (QuestionRun (f_job_title fm) (String.concat nl pages)
                            (job_desc (inputs_from fm "")) "") :: rest)%list /\
    calls_made rest = 0%nat.
Proof.
  intros Hs Hopt Hfile Hj Hr.
  destruct w as [ss tr]; simpl in Hs; subst ss.
  unfold page, init_session, read_resume, mbind at 1 2, M_bind at 1 2. simpl. rewrite Hopt, Hfile.
  simpl.
  assert (Hv : String.eqb (strip (f_job_title fm)) "" || String.eqb (strip (String.concat nl pages)) "" = false).
  { apply eqb_false_of_neq in Hj, Hr. rewrite Hj, Hr. reflexivity. }
  rewrite (script_start_valid_b o (inputs_from fm (String.concat nl pages)) (mk_world (Some s) tr) Hv).
  simpl. destruct (o _); simpl; eexists; (split; [reflexivity | reflexivity]).
Qed.

Lemma pdf_pages_are_the_resume_witness :
  exists rest,
    trace (snd (page oracle_ok
                  (mk_form "Backend Engineer" UploadPdf "" (Some (PdfPages ["Go"; "Kafka"])) false "" "")
                  (Some StartBtn) started_world)) =
      (trace started_world ++ Called (QuestionRun "Backend Engineer" (String.concat nl ["Go"; "Kafka"])
                                        "Not provided" "") :: rest)%list /\
    calls_made rest = 0%nat.
Proof.
  apply (pdf_pages_are_the_resume oracle_ok
           (mk_form "Backend Engineer" UploadPdf "" (Some (PdfPages ["Go"; "Kafka"])) false "" "")
           ["Go"; "Kafka"] started_world started_session started_world_session);
    [reflexivity | reflexivity | discriminate | discriminate].
Defined.
